(** * Otto emoji GIF component: the rotation example, [examples/basic_usage.c]

    A shallow embedding of the example's C functions and the properties of
    its timed rotation of named image assets.

    The target is an ILP32 platform (ESP32): [int] and [size_t] are 32 bits
    wide.  Undefined behaviour of the C program (an array read out of
    bounds, signed overflow) is the result [None]. *)

From Stdlib Require Import ZArith List String Bool Lia.
Import ListNotations.

Local Open Scope string_scope.
Local Open Scope list_scope.
Local Open Scope Z_scope.

(** ** C integers *)

Definition INT_MAX : Z := 2147483647.
Definition INT_MIN : Z := -2147483648.
Definition SIZE_MODULUS : Z := 4294967296.

(** [a + b] on [int]: signed overflow is undefined. *)
Definition int_add (a b : Z) : option Z :=
  let r := a + b in
  if (INT_MIN <=? r) && (r <=? INT_MAX) then Some r else None.

(** The conversion of an [int] to [size_t] (the usual arithmetic conversions
    when the other operand is a [size_t]). *)
Definition size_t_of_int (a : Z) : Z := a mod SIZE_MODULUS.

(** The conversion of a [size_t] back to [int] on assignment. *)
Definition int_of_size_t (a : Z) : Z :=
  if a <=? INT_MAX then a else a - SIZE_MODULUS.

(** [arr[i]] for an [int] index: defined inside the array only. *)
Definition array_get {A : Type} (arr : list A) (i : Z) : option A :=
  if 0 <=? i then nth_error arr (Z.to_nat i) else None.

(** [sizeof(arr) / sizeof(arr[0])]. *)
Definition array_count {A : Type} (arr : list A) : Z := Z.of_nat (List.length arr).

(** ** The error monad of undefined behaviour *)

Definition bind {A B : Type} (m : option A) (k : A -> option B) : option B :=
  match m with
  | Some a => k a
  | None => None
  end.

Notation "x <- m ;; k" := (bind m (fun x => k))
  (at level 100, m at next level, right associativity).

(** ** Collaborators: the diagnostic sink, the host's delay, LVGL timers *)

Inductive esp_log_level : Type := ESP_LOG_ERROR | ESP_LOG_WARN | ESP_LOG_INFO.

Inductive log_arg : Type :=
| ArgStr (s : string)
| ArgInt (n : Z).

(** What the program sends out, in order: a log line (level, format string and
    arguments, under the tag ["otto_gif_example"]) or a blocking delay of a
    number of ticks. *)
Inductive event : Type :=
| Log (level : esp_log_level) (fmt : string) (args : list log_arg)
| Delay (ticks : Z).

(** A [lv_timer_t *]: the identity of a timer of the host. *)
Definition lv_timer_t : Type := nat.

(** The callbacks this program registers. *)
Inductive timer_cb : Type := cb_emotion_timer_callback.

(** A live timer of the host: its handle, callback and period in ms. *)
Record lv_timer : Type := mk_timer {
  timer_handle : lv_timer_t;
  timer_callback : timer_cb;
  timer_period : Z
}.

Section Program.

(** The image descriptor type of the widget library, the asset registry's
    lookup and its default asset, and the FreeRTOS tick conversion macro
    are declared outside this file. *)
Variable lv_img_dsc_t : Type.
Variable otto_emoji_gif_get_by_name : string -> option lv_img_dsc_t.
Variable otto_emoji_gif_get_version : string.
Variable otto_emoji_gif_get_count : Z.
Variable staticstate : lv_img_dsc_t.
Variable pdMS_TO_TICKS : Z -> Z.

(** [emotion_sequence], the static array of the rotation.  The functions are
    written for any contents of the array; its six names are given after the
    section. *)
Variable emotion_sequence : list string.

(** The GIF widget: the image source it shows, if one was set. *)
Record lv_gif : Type := mk_gif { gif_src : option lv_img_dsc_t }.

(** The globals of the file, the live timers of the host with the next
    handle it hands out, and the events emitted so far. *)
Record State : Type := mk_state {
  emotion_gif : option lv_gif;
  emotion_timer : option lv_timer_t;
  current_emotion_index : Z;
  lv_timers : list lv_timer;
  lv_timer_next : lv_timer_t;
  trace : list event
}.

Definition initial_state : State :=
  {| emotion_gif := None; emotion_timer := None; current_emotion_index := 0;
     lv_timers := []; lv_timer_next := O; trace := [] |}.

(** *** State updates *)

Definition emit (e : event) (s : State) : State :=
  {| emotion_gif := emotion_gif s; emotion_timer := emotion_timer s;
     current_emotion_index := current_emotion_index s;
     lv_timers := lv_timers s; lv_timer_next := lv_timer_next s;
     trace := trace s ++ [e] |}.

Definition ESP_LOGE (fmt : string) (args : list log_arg) : State -> State :=
  emit (Log ESP_LOG_ERROR fmt args).
Definition ESP_LOGW (fmt : string) (args : list log_arg) : State -> State :=
  emit (Log ESP_LOG_WARN fmt args).
Definition ESP_LOGI (fmt : string) (args : list log_arg) : State -> State :=
  emit (Log ESP_LOG_INFO fmt args).

Definition vTaskDelay (ticks : Z) : State -> State := emit (Delay ticks).

Definition set_emotion_gif (g : option lv_gif) (s : State) : State :=
  {| emotion_gif := g; emotion_timer := emotion_timer s;
     current_emotion_index := current_emotion_index s;
     lv_timers := lv_timers s; lv_timer_next := lv_timer_next s;
     trace := trace s |}.

Definition set_emotion_timer (t : option lv_timer_t) (s : State) : State :=
  {| emotion_gif := emotion_gif s; emotion_timer := t;
     current_emotion_index := current_emotion_index s;
     lv_timers := lv_timers s; lv_timer_next := lv_timer_next s;
     trace := trace s |}.

Definition set_current_emotion_index (i : Z) (s : State) : State :=
  {| emotion_gif := emotion_gif s; emotion_timer := emotion_timer s;
     current_emotion_index := i;
     lv_timers := lv_timers s; lv_timer_next := lv_timer_next s;
     trace := trace s |}.

(** [lv_gif_set_src(emotion_gif, src)]: the widget shows [src].  The program
    calls it on an existing widget only. *)
Definition lv_gif_set_src (src : lv_img_dsc_t) (s : State) : State :=
  match emotion_gif s with
  | Some _ => set_emotion_gif (Some {| gif_src := Some src |}) s
  | None => s
  end.

(** [lv_gif_create]: a widget with no source yet. *)
Definition lv_gif_create : lv_gif := {| gif_src := None |}.

(** [lv_timer_create(cb, period, NULL)]: the host registers a new timer under
    a fresh handle and returns the handle (allocation is assumed to
    succeed). *)
Definition lv_timer_create (cb : timer_cb) (period : Z) (s : State)
  : lv_timer_t * State :=
  let t := lv_timer_next s in
  (t, {| emotion_gif := emotion_gif s; emotion_timer := emotion_timer s;
         current_emotion_index := current_emotion_index s;
         lv_timers := lv_timers s ++ [mk_timer t cb period];
         lv_timer_next := S t;
         trace := trace s |}).

(** [lv_timer_del(t)]: the host forgets the timer. *)
Definition lv_timer_del (t : lv_timer_t) (s : State) : State :=
  {| emotion_gif := emotion_gif s; emotion_timer := emotion_timer s;
     current_emotion_index := current_emotion_index s;
     lv_timers :=
       filter (fun tm => negb (Nat.eqb (timer_handle tm) t)) (lv_timers s);
     lv_timer_next := lv_timer_next s;
     trace := trace s |}.

(** *** The functions of [basic_usage.c] *)

(** [emotion_timer_callback]: show the emotion at the current index, then
    move the index to the next one. *)
Definition emotion_timer_callback (s : State) : option State :=
  match emotion_gif s with
  | None => Some s
  | Some _ =>
      emotion_name <- array_get emotion_sequence (current_emotion_index s) ;;
      let s1 :=
        match otto_emoji_gif_get_by_name emotion_name with
        | Some emotion =>
            ESP_LOGI "切换到表情: %s" [ArgStr emotion_name]
              (lv_gif_set_src emotion s)
        | None =>
            lv_gif_set_src staticstate
              (ESP_LOGW "未找到表情: %s，使用默认表情" [ArgStr emotion_name] s)
        end in
      next <- int_add (current_emotion_index s1) 1 ;;
      Some (set_current_emotion_index
              (int_of_size_t
                 (size_t_of_int next mod array_count emotion_sequence)) s1)
  end.

(** [create_emotion_display]: the container and the two labels only lay out
    the screen and are left out; the widget and the timer are created. *)
Definition create_emotion_display (s : State) : State :=
  let s := ESP_LOGI "Otto Emoji GIF组件版本: %s"
             [ArgStr otto_emoji_gif_get_version] s in
  let s := ESP_LOGI "支持的表情数量: %d" [ArgInt otto_emoji_gif_get_count] s in
  let s := set_emotion_gif (Some lv_gif_create) s in
  let s := lv_gif_set_src staticstate s in
  let (t, s) := lv_timer_create cb_emotion_timer_callback 3000 s in
  let s := set_emotion_timer (Some t) s in
  ESP_LOGI "表情显示界面创建完成" [] s.

(** [set_emotion_by_name]. *)
Definition set_emotion_by_name (emotion_name : string) (s : State) : State :=
  match emotion_gif s with
  | None => ESP_LOGE "GIF对象未初始化" [] s
  | Some _ =>
      match otto_emoji_gif_get_by_name emotion_name with
      | Some emotion =>
          ESP_LOGI "手动设置表情: %s" [ArgStr emotion_name]
            (lv_gif_set_src emotion s)
      | None => ESP_LOGW "未找到表情: %s" [ArgStr emotion_name] s
      end
  end.

(** [stop_auto_emotion_switch]. *)
Definition stop_auto_emotion_switch (s : State) : State :=
  match emotion_timer s with
  | Some t =>
      ESP_LOGI "已停止自动切换表情" []
        (set_emotion_timer None (lv_timer_del t s))
  | None => s
  end.

(** [start_auto_emotion_switch]. *)
Definition start_auto_emotion_switch (s : State) : State :=
  match emotion_timer s with
  | None =>
      let (t, s) := lv_timer_create cb_emotion_timer_callback 3000 s in
      ESP_LOGI "已开始自动切换表情" [] (set_emotion_timer (Some t) s)
  | Some _ => s
  end.

(** The [for] loop of [demo_all_emotions], from the test [i < emotion_count]
    on; [fuel] bounds the number of iterations ([None] when it runs out). *)
Fixpoint demo_loop (fuel : nat) (all_emotions : list string)
    (emotion_count i : Z) (s : State) : option State :=
  if i <? emotion_count then
    match fuel with
    | O => None
    | S fuel' =>
        name <- array_get all_emotions i ;;
        let s := set_emotion_by_name name s in
        let s := vTaskDelay (pdMS_TO_TICKS 2000) s in
        i' <- int_add i 1 ;;
        demo_loop fuel' all_emotions emotion_count i' s
    end
  else Some s.

(** [demo_all_emotions]. *)
Definition demo_all_emotions (s : State) : option State :=
  let s := ESP_LOGI "开始演示所有表情..." [] s in
  let all_emotions :=
    ["staticstate"; "happy"; "sad"; "anger"; "scare"; "buxue"] in
  let emotion_count := array_count all_emotions in
  s <- demo_loop (Z.to_nat emotion_count) all_emotions emotion_count 0 s ;;
  Some (ESP_LOGI "表情演示完成" [] s).

(** *** The host's timer handling *)

Definition run_callback (cb : timer_cb) (s : State) : option State :=
  match cb with
  | cb_emotion_timer_callback => emotion_timer_callback s
  end.

(** The timer [t] comes due: its callback runs if the host still has it. *)
Definition lv_timer_fire (t : lv_timer_t) (s : State) : option State :=
  match find (fun tm => Nat.eqb (timer_handle tm) t) (lv_timers s) with
  | Some tm => run_callback (timer_callback tm) s
  | None => Some s
  end.

Fixpoint run_timers (tms : list lv_timer) (s : State) : option State :=
  match tms with
  | [] => Some s
  | tm :: rest => s' <- run_callback (timer_callback tm) s ;; run_timers rest s'
  end.

(** A period elapses: every live timer of the host fires once. *)
Definition lv_timer_handler (s : State) : option State :=
  run_timers (lv_timers s) s.

(** *** The operations of the rotation controller *)

Inductive operation : Type :=
| tick
| set_by_name (name : string)
| start
| stop
| demo_all.

Definition run (op : operation) (s : State) : option State :=
  match op with
  | tick => emotion_timer_callback s
  | set_by_name name => Some (set_emotion_by_name name s)
  | start => Some (start_auto_emotion_switch s)
  | stop => Some (stop_auto_emotion_switch s)
  | demo_all => demo_all_emotions s
  end.

(** [n] ticks in a row. *)
Fixpoint ticks (n : nat) (s : State) : option State :=
  match n with
  | O => Some s
  | S n' => s' <- emotion_timer_callback s ;; ticks n' s'
  end.

(** *** Observations *)

(** The handle the display shows. *)
Definition displayed (s : State) : option lv_img_dsc_t :=
  match emotion_gif s with
  | Some g => gif_src g
  | None => None
  end.

(** The handles shown after each of [n] successive ticks. *)
Fixpoint displayed_by_ticks (n : nat) (s : State)
  : option (list (option lv_img_dsc_t)) :=
  match n with
  | O => Some []
  | S n' =>
      s' <- emotion_timer_callback s ;;
      rest <- displayed_by_ticks n' s' ;;
      Some (displayed s' :: rest)
  end.

(** What a tick shows for a name: its asset, or the default one. *)
Definition shown_for (name : string) : lv_img_dsc_t :=
  match otto_emoji_gif_get_by_name name with
  | Some emotion => emotion
  | None => staticstate
  end.

(** What a tick logs for a name. *)
Definition logged_for (name : string) : event :=
  match otto_emoji_gif_get_by_name name with
  | Some _ => Log ESP_LOG_INFO "切换到表情: %s" [ArgStr name]
  | None => Log ESP_LOG_WARN "未找到表情: %s，使用默认表情" [ArgStr name]
  end.

(** The diagnostic [set_emotion_by_name] emits for a name in a state. *)
Definition set_by_name_log (s : State) (name : string) : event :=
  match emotion_gif s with
  | None => Log ESP_LOG_ERROR "GIF对象未初始化" []
  | Some _ =>
      match otto_emoji_gif_get_by_name name with
      | Some _ => Log ESP_LOG_INFO "手动设置表情: %s" [ArgStr name]
      | None => Log ESP_LOG_WARN "未找到表情: %s" [ArgStr name]
      end
  end.

(** One step of the demonstration: set the emotion, then wait. *)
Definition demo_step (s : State) (name : string) : State :=
  vTaskDelay (pdMS_TO_TICKS 2000) (set_emotion_by_name name s).

(** The state without the events emitted: the globals and the host's
    timers. *)
Definition same_globals (s s' : State) : Prop :=
  emotion_gif s' = emotion_gif s /\
  emotion_timer s' = emotion_timer s /\
  current_emotion_index s' = current_emotion_index s /\
  lv_timers s' = lv_timers s /\
  lv_timer_next s' = lv_timer_next s.

(** The events emitted between [s] and [s']. *)
Definition emitted (s s' : State) (evs : list event) : Prop :=
  trace s' = trace s ++ evs.

Definition is_error_log (e : event) : bool :=
  match e with
  | Log ESP_LOG_ERROR _ _ => true
  | _ => false
  end.

(** The index is a position of the rotation sequence. *)
Definition index_in_range (s : State) : Prop :=
  0 <= current_emotion_index s < array_count emotion_sequence.

(** The host's live timers are the one the program holds, if any. *)
Definition timers_wf (s : State) : Prop :=
  map timer_handle (lv_timers s) =
  match emotion_timer s with
  | Some t => [t]
  | None => []
  end.

(** The host hands out handles it has not used: every live timer has a
    handle below the next one. *)
Definition timers_fresh (s : State) : Prop :=
  forall tm : lv_timer,
    In tm (lv_timers s) -> (timer_handle tm < lv_timer_next s)%nat.

(** What [demo_all_emotions] leaves on an existing widget: the asset of the
    last name that resolves, or what was shown before. *)
Definition last_resolved (names : list string) (shown : option lv_img_dsc_t)
  : option lv_img_dsc_t :=
  fold_left
    (fun d name =>
       match otto_emoji_gif_get_by_name name with
       | Some emotion => Some emotion
       | None => d
       end)
    names shown.

End Program.

Arguments State lv_img_dsc_t : clear implicits.
Arguments initial_state {lv_img_dsc_t}.
Arguments emotion_gif {lv_img_dsc_t}.
Arguments emotion_timer {lv_img_dsc_t}.
Arguments current_emotion_index {lv_img_dsc_t}.
Arguments lv_timers {lv_img_dsc_t}.
Arguments lv_timer_next {lv_img_dsc_t}.
Arguments trace {lv_img_dsc_t}.
Arguments gif_src {lv_img_dsc_t}.
Arguments displayed {lv_img_dsc_t}.
Arguments same_globals {lv_img_dsc_t}.
Arguments emitted {lv_img_dsc_t}.
Arguments index_in_range {lv_img_dsc_t}.
Arguments timers_wf {lv_img_dsc_t}.
Arguments timers_fresh {lv_img_dsc_t}.
Arguments last_resolved {lv_img_dsc_t}.

(** ** The program as configured in [basic_usage.c] *)

(** [emotion_sequence], line 19 of the file. *)
Definition emotion_sequence : list string :=
  ["staticstate"; "happy"; "sad"; "anger"; "scare"; "buxue"].

Arguments lv_gif_set_src {lv_img_dsc_t}.
Arguments emotion_timer_callback {lv_img_dsc_t}.
Arguments create_emotion_display {lv_img_dsc_t}.
Arguments set_emotion_by_name {lv_img_dsc_t}.
Arguments stop_auto_emotion_switch {lv_img_dsc_t}.
Arguments start_auto_emotion_switch {lv_img_dsc_t}.
Arguments demo_loop {lv_img_dsc_t}.
Arguments demo_all_emotions {lv_img_dsc_t}.
Arguments lv_timer_fire {lv_img_dsc_t}.
Arguments lv_timer_handler {lv_img_dsc_t}.
Arguments run {lv_img_dsc_t}.
Arguments ticks {lv_img_dsc_t}.
Arguments displayed_by_ticks {lv_img_dsc_t}.
Arguments vTaskDelay {lv_img_dsc_t}.
Arguments ESP_LOGI {lv_img_dsc_t}.
Arguments ESP_LOGW {lv_img_dsc_t}.
Arguments ESP_LOGE {lv_img_dsc_t}.
Arguments set_by_name_log {lv_img_dsc_t}.
Arguments demo_step {lv_img_dsc_t}.
Arguments shown_for {lv_img_dsc_t}.
Arguments logged_for {lv_img_dsc_t}.

(** A registry for running the program: the six assets of the component,
    each handle written as its name. *)
Definition sample_registry (name : string) : option string :=
  if existsb (String.eqb name) emotion_sequence then Some name else None.

(** A registry that lacks ["sad"]. *)
Definition partial_registry (name : string) : option string :=
  if String.eqb name "sad" then None else sample_registry name.

(** The state [create_emotion_display] leaves when it is called first, with
    the handles of [sample_registry], and the same state later in the
    rotation. *)
Definition sample_created : State string :=
  create_emotion_display "1.0.0" 6 "staticstate" initial_state.

Definition sample_at (i : Z) : State string :=
  set_current_emotion_index string i sample_created.

(** A tick rate of 100 Hz for [pdMS_TO_TICKS]. *)
Definition sample_ms_to_ticks (ms : Z) : Z := ms * 100 / 1000.

(** The names of the demonstration, in the order of [all_emotions]. *)
Definition demo_names : list string :=
  ["staticstate"; "happy"; "sad"; "anger"; "scare"; "buxue"].

(** The example scenario: three names, two of them registered. *)
Module Scenario.
Definition sequence : list string := ["a"; "b"; "c"].
Definition registry (name : string) : option string :=
  if String.eqb name "a" then Some "a"
  else if String.eqb name "b" then Some "b"
  else None.
Definition fallback : string := "default".
Definition scenario_start : State string :=
  {| emotion_gif := Some {| gif_src := Some fallback |};
     emotion_timer := Some O;
     current_emotion_index := 0;
     lv_timers := [mk_timer O cb_emotion_timer_callback 3000];
     lv_timer_next := 1%nat;
     trace := [] |}.
End Scenario.

(** Comparisons of closed integers, by evaluation. *)
Ltac decide_closed :=
  vm_compute; repeat split; solve [discriminate | reflexivity].

(** ** C integers: the conversions are the identity on small values *)

Lemma int_add_small (a b : Z) :
  INT_MIN <= a + b <= INT_MAX -> int_add a b = Some (a + b).
Proof.
  intros [Hlo Hhi]. unfold int_add.
  apply Z.leb_le in Hlo. apply Z.leb_le in Hhi.
  cbv zeta. rewrite Hlo, Hhi. reflexivity.
Qed.

Lemma size_t_of_int_small (a : Z) :
  0 <= a <= INT_MAX -> size_t_of_int a = a.
Proof.
  intros H. unfold size_t_of_int. apply Z.mod_small.
  unfold INT_MAX, SIZE_MODULUS in *. lia.
Qed.

Lemma int_of_size_t_small (a : Z) :
  a <= INT_MAX -> int_of_size_t a = a.
Proof.
  intros H. unfold int_of_size_t. apply Z.leb_le in H. rewrite H. reflexivity.
Qed.

Lemma array_get_in_range {A : Type} (arr : list A) (i : Z) :
  0 <= i < array_count arr -> exists a, array_get arr i = Some a.
Proof.
  intros [Hlo Hhi]. unfold array_get, array_count in *.
  apply Z.leb_le in Hlo. rewrite Hlo. apply Z.leb_le in Hlo.
  destruct (nth_error arr (Z.to_nat i)) as [a|] eqn:E.
  - exists a. reflexivity.
  - apply nth_error_None in E. lia.
Qed.

Lemma array_get_Some_range {A : Type} (arr : list A) (i : Z) (a : A) :
  array_get arr i = Some a -> 0 <= i < array_count arr.
Proof.
  unfold array_get, array_count. destruct (0 <=? i) eqn:Hlo; [|discriminate].
  intros H. apply Z.leb_le in Hlo.
  assert (Hlt : (Z.to_nat i < List.length arr)%nat)
    by (apply nth_error_Some; congruence).
  lia.
Qed.

(** The index the callback stores for an index inside the array. *)
Lemma next_index_small (i n : Z) :
  0 <= i < n -> n <= INT_MAX ->
  int_add i 1 = Some (i + 1) /\
  int_of_size_t (size_t_of_int (i + 1) mod n) = (i + 1) mod n.
Proof.
  intros Hi Hn. split.
  - apply int_add_small. unfold INT_MIN, INT_MAX in *. lia.
  - rewrite size_t_of_int_small by lia.
    apply int_of_size_t_small.
    assert (0 <= (i + 1) mod n < n) by (apply Z.mod_pos_bound; lia). lia.
Qed.

(** ** The timer callback, for any registry and any rotation sequence *)

Section Rotation.

Variable img : Type.
Variable get_by_name : string -> option img.
Variable default_img : img.
Variable sequence : list string.

Hypothesis sequence_fits : array_count sequence <= INT_MAX.

Local Abbreviation callback :=
  (emotion_timer_callback get_by_name default_img sequence).
Local Abbreviation in_range := (index_in_range sequence).
Local Abbreviation shown := (shown_for get_by_name default_img).
Local Abbreviation logged := (logged_for get_by_name).

Lemma callback_uninitialized (s : State img) :
  emotion_gif s = None -> callback s = Some s.
Proof. intros H. unfold emotion_timer_callback. rewrite H. reflexivity. Qed.

(** One tick of an initialised display at an index inside the sequence. *)
Lemma callback_step (s : State img) (g : lv_gif img) :
  emotion_gif s = Some g -> in_range s ->
  exists name s',
    array_get sequence (current_emotion_index s) = Some name /\
    callback s = Some s' /\
    emotion_gif s' = Some {| gif_src := Some (shown name) |} /\
    current_emotion_index s' =
      (current_emotion_index s + 1) mod array_count sequence /\
    emotion_timer s' = emotion_timer s /\
    lv_timers s' = lv_timers s /\
    lv_timer_next s' = lv_timer_next s /\
    trace s' = trace s ++ [logged name].
Proof.
  intros Hg Hr. unfold index_in_range in Hr.
  destruct (array_get_in_range sequence _ Hr) as [name Hname].
  destruct (next_index_small _ _ Hr sequence_fits) as [Hadd Hconv].
  exists name. unfold emotion_timer_callback, shown_for, logged_for.
  rewrite Hg, Hname. cbn [bind].
  destruct (get_by_name name) as [emotion|];
    unfold lv_gif_set_src, ESP_LOGI, ESP_LOGW, emit, set_emotion_gif;
    cbn [emotion_gif current_emotion_index]; rewrite Hg;
    cbn [emotion_gif current_emotion_index]; rewrite Hadd; cbn [bind];
    rewrite Hconv; eexists; repeat split; reflexivity.
Qed.

Lemma callback_keeps_range (s s' : State img) :
  in_range s -> callback s = Some s' -> in_range s'.
Proof.
  intros Hr Hs. destruct (emotion_gif s) as [g|] eqn:Hg.
  - destruct (callback_step s g Hg Hr) as (name & s1 & _ & Hs1 & _ & Hi & _).
    rewrite Hs in Hs1. injection Hs1 as <-.
    unfold index_in_range in *. rewrite Hi.
    apply Z.mod_pos_bound. lia.
  - rewrite (callback_uninitialized s Hg) in Hs. injection Hs as <-. exact Hr.
Qed.

(** [n] ticks move the index [n] places round the sequence. *)
Lemma ticks_index (n : nat) : forall (s : State img) (g : lv_gif img),
  emotion_gif s = Some g -> in_range s ->
  exists s' g',
    ticks get_by_name default_img sequence n s = Some s' /\
    emotion_gif s' = Some g' /\
    current_emotion_index s' =
      (current_emotion_index s + Z.of_nat n) mod array_count sequence /\
    emotion_timer s' = emotion_timer s /\
    lv_timers s' = lv_timers s.
Proof.
  induction n as [|n IH]; intros s g Hg Hr.
  - exists s, g. cbn [ticks]. repeat split; try assumption.
    unfold index_in_range in Hr. rewrite Z.add_0_r, Z.mod_small; lia.
  - destruct (callback_step s g Hg Hr)
      as (name & s1 & _ & Hs1 & Hg1 & Hi1 & Ht1 & Hl1 & _).
    assert (Hr1 : in_range s1) by (eapply callback_keeps_range; eassumption).
    destruct (IH s1 _ Hg1 Hr1) as (s' & g' & Hs' & Hg' & Hi' & Ht' & Hl').
    exists s', g'. cbn [ticks]. rewrite Hs1. cbn [bind].
    repeat split; try congruence.
    rewrite Hi', Hi1. unfold index_in_range in Hr.
    rewrite Zplus_mod_idemp_l. f_equal. lia.
Qed.

(** The last of [S n] ticks is a tick of the state the first [n] leave. *)
Lemma ticks_snoc (n : nat) : forall s : State img,
  ticks get_by_name default_img sequence (S n) s =
  bind (ticks get_by_name default_img sequence n s) (fun s' => callback s').
Proof.
  induction n as [|n IH]; intros s.
  - cbn [ticks bind]. destruct (callback s); reflexivity.
  - change (ticks get_by_name default_img sequence (S (S n)) s)
      with (bind (callback s)
                 (fun s' => ticks get_by_name default_img sequence (S n) s')).
    change (ticks get_by_name default_img sequence (S n) s)
      with (bind (callback s)
                 (fun s' => ticks get_by_name default_img sequence n s')).
    destruct (callback s) as [s1|]; cbn [bind]; [apply IH|reflexivity].
Qed.

(** A tick that returns leaves the timers alone. *)
Lemma callback_keeps_timers (s s' : State img) :
  callback s = Some s' ->
  emotion_timer s' = emotion_timer s /\ lv_timers s' = lv_timers s.
Proof.
  unfold emotion_timer_callback.
  destruct (emotion_gif s) as [g|] eqn:Hg.
  - destruct (array_get sequence (current_emotion_index s)) as [name|];
      cbn [bind]; [|discriminate].
    match goal with
    | |- context [int_add ?a 1] => destruct (int_add a 1) as [next|]
    end; cbn [bind]; [|discriminate].
    intros H. injection H as <-.
    destruct (get_by_name name) as [emotion|];
      unfold lv_gif_set_src; cbn; rewrite Hg; split; reflexivity.
  - intros H. injection H as <-. split; reflexivity.
Qed.

(** [n] ticks show the names from the current index on, round the
    sequence. *)
Lemma displayed_by_ticks_rotation (n : nat) :
  forall (s : State img) (g : lv_gif img),
    emotion_gif s = Some g -> in_range s ->
    displayed_by_ticks get_by_name default_img sequence n s =
    Some (map (fun k : nat =>
                 option_map shown
                   (array_get sequence
                      ((current_emotion_index s + Z.of_nat k)
                       mod array_count sequence)))
              (List.seq 0 n)).
Proof.
  induction n as [|n IH]; intros s g Hg Hr; [reflexivity|].
  destruct (callback_step s g Hg Hr)
    as (name & s1 & Hname & Hs1 & Hg1 & Hi1 & _).
  assert (Hr1 : in_range s1) by (eapply callback_keeps_range; eassumption).
  cbn [displayed_by_ticks]. rewrite Hs1. cbn [bind].
  rewrite (IH s1 _ Hg1 Hr1). cbn [bind]. f_equal.
  cbn [List.seq map]. f_equal.
  - unfold index_in_range in Hr.
    rewrite Z.add_0_r, Z.mod_small, Hname by exact Hr.
    unfold displayed. rewrite Hg1. reflexivity.
  - rewrite <- seq_shift, map_map. apply map_ext. intros k.
    rewrite Hi1, Zplus_mod_idemp_l. do 3 f_equal. lia.
Qed.

(** A tick of an existing widget is defined exactly at the indices of the
    sequence. *)
Lemma callback_defined_iff (s : State img) (g : lv_gif img) :
  emotion_gif s = Some g ->
  (exists s', callback s = Some s') <-> in_range s.
Proof.
  intros Hg. split.
  - intros (s' & Hs'). unfold emotion_timer_callback in Hs'. rewrite Hg in Hs'.
    destruct (array_get sequence (current_emotion_index s)) as [name|] eqn:E;
      [|discriminate Hs'].
    eapply array_get_Some_range. exact E.
  - intros Hr. destruct (callback_step s g Hg Hr) as (_ & s' & _ & Hs' & _).
    exists s'. exact Hs'.
Qed.

(** A manual set before a tick does not change what the tick leaves. *)
Lemma callback_after_set (name : string) (s : State img) (g : lv_gif img) :
  emotion_gif s = Some g -> in_range s ->
  exists s1 s2,
    callback (set_emotion_by_name get_by_name name s) = Some s1 /\
    callback s = Some s2 /\
    same_globals s2 s1.
Proof.
  intros Hg Hr.
  assert (Hframe :
    emotion_timer (set_emotion_by_name get_by_name name s) = emotion_timer s /\
    current_emotion_index (set_emotion_by_name get_by_name name s) =
      current_emotion_index s /\
    lv_timers (set_emotion_by_name get_by_name name s) = lv_timers s /\
    lv_timer_next (set_emotion_by_name get_by_name name s) = lv_timer_next s /\
    exists g0, emotion_gif (set_emotion_by_name get_by_name name s) = Some g0).
  { unfold set_emotion_by_name, lv_gif_set_src. rewrite Hg.
    destruct (get_by_name name) as [emotion|]; cbn; rewrite ?Hg;
      repeat split; eexists; reflexivity. }
  destruct Hframe as (Ft & Fi & Fl & Fn & g0 & Fg).
  assert (Hr0 : in_range (set_emotion_by_name get_by_name name s))
    by (unfold index_in_range; rewrite Fi; exact Hr).
  destruct (callback_step _ g0 Fg Hr0)
    as (n1 & s1 & Hn1 & Hs1 & Hg1 & Hi1 & Ht1 & Hl1 & Hx1 & _).
  destruct (callback_step s g Hg Hr)
    as (n2 & s2 & Hn2 & Hs2 & Hg2 & Hi2 & Ht2 & Hl2 & Hx2 & _).
  rewrite Fi in Hn1, Hi1.
  assert (n1 = n2) by congruence. subst n2.
  exists s1, s2. split; [exact Hs1|]. split; [exact Hs2|].
  unfold same_globals. repeat split; congruence.
Qed.

End Rotation.

(** ** The manual entry points and the timer switch *)

(** A log line changes the trace only. *)
Lemma ESP_LOGI_frame (img : Type) (fmt : string) (args : list log_arg)
    (s : State img) :
  emotion_gif (ESP_LOGI fmt args s) = emotion_gif s /\
  emotion_timer (ESP_LOGI fmt args s) = emotion_timer s /\
  current_emotion_index (ESP_LOGI fmt args s) = current_emotion_index s /\
  lv_timers (ESP_LOGI fmt args s) = lv_timers s /\
  lv_timer_next (ESP_LOGI fmt args s) = lv_timer_next s /\
  trace (ESP_LOGI fmt args s) = trace s ++ [Log ESP_LOG_INFO fmt args].
Proof. repeat split; reflexivity. Qed.

Section Otto.

Variable img : Type.
Variable get_by_name : string -> option img.
Variable default_img : img.
Variable ms_to_ticks : Z -> Z.

Local Abbreviation set_by_name_fn := (set_emotion_by_name get_by_name).
Local Abbreviation start_fn := (@start_auto_emotion_switch img).
Local Abbreviation stop_fn := (@stop_auto_emotion_switch img).
Local Abbreviation demo_fn := (demo_all_emotions get_by_name ms_to_ticks).
Local Abbreviation step_fn := (demo_step get_by_name ms_to_ticks).

(** [set_emotion_by_name] touches the widget and the log only. *)
Lemma set_by_name_frame (name : string) (s : State img) :
  emotion_timer (set_by_name_fn name s) = emotion_timer s /\
  current_emotion_index (set_by_name_fn name s) = current_emotion_index s /\
  lv_timers (set_by_name_fn name s) = lv_timers s /\
  lv_timer_next (set_by_name_fn name s) = lv_timer_next s /\
  (emotion_gif s = None <-> emotion_gif (set_by_name_fn name s) = None) /\
  trace (set_by_name_fn name s) = trace s ++ [set_by_name_log get_by_name s name].
Proof.
  unfold set_emotion_by_name, set_by_name_log, lv_gif_set_src.
  destruct (emotion_gif s) as [g|] eqn:Hg.
  - destruct (get_by_name name) as [emotion|]; cbn; rewrite ?Hg;
      repeat split; intros; congruence.
  - cbn. rewrite Hg. repeat split; intros; congruence.
Qed.

Lemma demo_step_frame (name : string) (s : State img) :
  emotion_timer (step_fn s name) = emotion_timer s /\
  current_emotion_index (step_fn s name) = current_emotion_index s /\
  lv_timers (step_fn s name) = lv_timers s /\
  lv_timer_next (step_fn s name) = lv_timer_next s /\
  (emotion_gif s = None <-> emotion_gif (step_fn s name) = None) /\
  trace (step_fn s name) =
    trace s ++ [set_by_name_log get_by_name s name; Delay (ms_to_ticks 2000)].
Proof.
  destruct (set_by_name_frame name s) as (Ht & Hi & Hl & Hn & Hg & Htr).
  unfold demo_step, vTaskDelay, emit. cbn.
  rewrite Htr, <- app_assoc. repeat split; try assumption; apply Hg.
Qed.

(** The log line of a manual set depends on the state only through whether
    the widget exists. *)
Lemma set_by_name_log_stable (s s' : State img) (name : string) :
  (emotion_gif s = None <-> emotion_gif s' = None) ->
  set_by_name_log get_by_name s' name = set_by_name_log get_by_name s name.
Proof.
  intros H. unfold set_by_name_log.
  destruct (emotion_gif s) as [g|], (emotion_gif s') as [g'|]; try reflexivity.
  - destruct H as [_ H]. discriminate (H eq_refl).
  - destruct H as [H _]. discriminate (H eq_refl).
Qed.

(** A run of demonstration steps, by induction on the names left. *)
Lemma demo_steps_frame (names : list string) : forall s : State img,
  emotion_timer (fold_left step_fn names s) = emotion_timer s /\
  current_emotion_index (fold_left step_fn names s) = current_emotion_index s /\
  lv_timers (fold_left step_fn names s) = lv_timers s /\
  lv_timer_next (fold_left step_fn names s) = lv_timer_next s /\
  (emotion_gif s = None <-> emotion_gif (fold_left step_fn names s) = None) /\
  trace (fold_left step_fn names s) =
    trace s ++
    flat_map (fun name =>
                [set_by_name_log get_by_name s name; Delay (ms_to_ticks 2000)])
             names.
Proof.
  induction names as [|name names IH]; intros s; cbn [fold_left flat_map].
  - rewrite app_nil_r. repeat split; intros; assumption.
  - destruct (demo_step_frame name s) as (Ht & Hi & Hl & Hn & Hg & Htr).
    destruct (IH (step_fn s name)) as (Ht' & Hi' & Hl' & Hn' & Hg' & Htr').
    repeat split; try congruence.
    + intros H. apply Hg'. apply Hg. exact H.
    + intros H. apply Hg. apply Hg'. exact H.
    + rewrite Htr', Htr, <- app_assoc. f_equal. cbn [app]. do 2 f_equal.
      apply flat_map_ext. intros n.
      rewrite (set_by_name_log_stable s (step_fn s name) n Hg). reflexivity.
Qed.

(** The loop of [demo_all_emotions] unrolled: its six steps in order. *)
Lemma demo_all_unrolled (s : State img) :
  demo_fn s =
  Some (ESP_LOGI "表情演示完成" []
          (fold_left step_fn demo_names
             (ESP_LOGI "开始演示所有表情..." [] s))).
Proof. reflexivity. Qed.

(** [demo_all_emotions] returns; it touches the widget and the log only, and
    emits, between its two info lines, the diagnostic of each manual set
    followed by the delay, in the order of the names. *)
Lemma demo_all_frame (s : State img) :
  exists s',
    demo_fn s = Some s' /\
    emotion_timer s' = emotion_timer s /\
    current_emotion_index s' = current_emotion_index s /\
    lv_timers s' = lv_timers s /\
    lv_timer_next s' = lv_timer_next s /\
    (emotion_gif s = None <-> emotion_gif s' = None) /\
    trace s' =
      trace s ++
      [Log ESP_LOG_INFO "开始演示所有表情..." []] ++
      flat_map (fun name =>
                  [set_by_name_log get_by_name s name; Delay (ms_to_ticks 2000)])
               demo_names ++
      [Log ESP_LOG_INFO "表情演示完成" []].
Proof.
  eexists. split; [apply demo_all_unrolled|].
  set (s0 := ESP_LOGI "开始演示所有表情..." [] s).
  destruct (demo_steps_frame demo_names s0) as (Ht & Hi & Hl & Hn & Hg & Htr).
  destruct (ESP_LOGI_frame img "表情演示完成" [] (fold_left step_fn demo_names s0))
    as (Eg & Et & Ei & El & En & Etr).
  destruct (ESP_LOGI_frame img "开始演示所有表情..." [] s)
    as (Eg0 & Et0 & Ei0 & El0 & En0 & Etr0).
  fold s0 in Eg0, Et0, Ei0, El0, En0, Etr0.
  rewrite Eg, Et, Ei, El, En, Etr, Ht, Hi, Hl, Hn, Htr, Etr0.
  rewrite <- Eg0 at 1.
  do 4 (split; [reflexivity|]). split; [exact Hg|].
  rewrite <- !app_assoc. reflexivity.
Qed.

(** [start_auto_emotion_switch] with no timer held: the host gets one new
    timer for the callback and the program holds its handle. *)
Lemma start_when_stopped (s : State img) :
  emotion_timer s = None ->
  emotion_timer (start_fn s) = Some (lv_timer_next s) /\
  lv_timers (start_fn s) =
    lv_timers s ++ [mk_timer (lv_timer_next s) cb_emotion_timer_callback 3000] /\
  emotion_gif (start_fn s) = emotion_gif s /\
  current_emotion_index (start_fn s) = current_emotion_index s /\
  trace (start_fn s) = trace s ++ [Log ESP_LOG_INFO "已开始自动切换表情" []].
Proof.
  intros H. unfold start_auto_emotion_switch. rewrite H.
  repeat split; reflexivity.
Qed.

Lemma start_when_running (s : State img) (t : lv_timer_t) :
  emotion_timer s = Some t -> start_fn s = s.
Proof. intros H. unfold start_auto_emotion_switch. rewrite H. reflexivity. Qed.

Lemma stop_when_stopped (s : State img) :
  emotion_timer s = None -> stop_fn s = s.
Proof. intros H. unfold stop_auto_emotion_switch. rewrite H. reflexivity. Qed.

(** [stop_auto_emotion_switch] with a timer held deletes it from the host. *)
Lemma stop_when_running (s : State img) (t : lv_timer_t) :
  emotion_timer s = Some t ->
  emotion_timer (stop_fn s) = None /\
  lv_timers (stop_fn s) =
    filter (fun tm => negb (Nat.eqb (timer_handle tm) t)) (lv_timers s) /\
  emotion_gif (stop_fn s) = emotion_gif s /\
  current_emotion_index (stop_fn s) = current_emotion_index s /\
  lv_timer_next (stop_fn s) = lv_timer_next s /\
  trace (stop_fn s) = trace s ++ [Log ESP_LOG_INFO "已停止自动切换表情" []].
Proof.
  intros H. unfold stop_auto_emotion_switch. rewrite H.
  repeat split; reflexivity.
Qed.

(** After a stop the program holds no timer, and under the single-timer
    invariant the host has none left. *)
Lemma stop_clears_timers (s : State img) :
  emotion_timer (stop_fn s) = None /\
  (timers_wf s -> lv_timers (stop_fn s) = []).
Proof.
  destruct (emotion_timer s) as [t|] eqn:Ht.
  - destruct (stop_when_running s t Ht) as (H1 & H2 & _).
    split; [exact H1|]. unfold timers_wf. rewrite Ht, H2. intros Hwf.
    destruct (lv_timers s) as [|tm [|tm' rest]]; try discriminate.
    injection Hwf as Hwf. cbn [filter]. rewrite Hwf, Nat.eqb_refl. reflexivity.
  - rewrite (stop_when_stopped s Ht). split; [exact Ht|].
    unfold timers_wf. rewrite Ht. intros Hwf.
    destruct (lv_timers s); [reflexivity|discriminate].
Qed.

(** [create_emotion_display] in any state: a new widget showing the default
    asset, and a new timer of the host whose handle replaces the one held. *)
Lemma create_frame (version : string) (count : Z) (s : State img) :
  emotion_gif (create_emotion_display version count default_img s) =
    Some {| gif_src := Some default_img |} /\
  emotion_timer (create_emotion_display version count default_img s) =
    Some (lv_timer_next s) /\
  current_emotion_index (create_emotion_display version count default_img s) =
    current_emotion_index s /\
  lv_timers (create_emotion_display version count default_img s) =
    lv_timers s ++ [mk_timer (lv_timer_next s) cb_emotion_timer_callback 3000] /\
  lv_timer_next (create_emotion_display version count default_img s) =
    S (lv_timer_next s).
Proof. repeat split; reflexivity. Qed.

(** What one step of the demonstration leaves on an existing widget. *)
Lemma demo_step_displayed (name : string) (s : State img) (g : lv_gif img) :
  emotion_gif s = Some g ->
  displayed (step_fn s name) = last_resolved get_by_name [name] (displayed s) /\
  exists g', emotion_gif (step_fn s name) = Some g'.
Proof.
  intros Hg.
  unfold demo_step, vTaskDelay, set_emotion_by_name, lv_gif_set_src,
    last_resolved, displayed.
  rewrite Hg. cbn [fold_left].
  destruct (get_by_name name) as [emotion|]; cbn; rewrite ?Hg;
    (split; [reflexivity|eexists; reflexivity]).
Qed.

Lemma demo_steps_displayed (names : list string) :
  forall (s : State img) (g : lv_gif img),
    emotion_gif s = Some g ->
    displayed (fold_left step_fn names s) =
    last_resolved get_by_name names (displayed s).
Proof.
  induction names as [|name names IH]; intros s g Hg; [reflexivity|].
  destruct (demo_step_displayed name s g Hg) as (Hd & g' & Hg').
  cbn [fold_left]. rewrite (IH _ g' Hg'), Hd. reflexivity.
Qed.

End Otto.

(** ** The rotation *)

(** C1 (as amended): a tick of an initialised display resolves and shows the
    name at the current index (the default asset when it does not resolve) and
    then advances the index by 1 modulo the length of the sequence.  In the
    scenario (sequence a, b, c; registry with a and b; fallback "default";
    index 0) successive ticks show a, b, default, a, b, default, ... *)
Theorem tick_shows_current_then_advances :
  (forall (img : Type) (get_by_name : string -> option img) (default_img : img)
          (sequence : list string) (s : State img) (g : lv_gif img),
      array_count sequence <= INT_MAX ->
      emotion_gif s = Some g ->
      index_in_range sequence s ->
      exists name s',
        array_get sequence (current_emotion_index s) = Some name /\
        emotion_timer_callback get_by_name default_img sequence s = Some s' /\
        displayed s' = Some (shown_for get_by_name default_img name) /\
        current_emotion_index s' =
          (current_emotion_index s + 1) mod array_count sequence) /\
  (forall k : nat,
      exists s',
        ticks Scenario.registry Scenario.fallback Scenario.sequence (S k)
          Scenario.scenario_start = Some s' /\
        displayed s' = nth_error ["a"; "b"; "default"] (k mod 3)%nat).
Proof.
  split.
  - intros img get_by_name default_img sequence s g Hfit Hg Hr.
    destruct (callback_step img get_by_name default_img sequence Hfit s g Hg Hr)
      as (name & s' & Hname & Hs' & Hg' & Hi' & _).
    exists name, s'. repeat split; try assumption.
    unfold displayed. rewrite Hg'. reflexivity.
  - intros k.
    assert (Hfit : array_count Scenario.sequence <= INT_MAX)
      by decide_closed.
    assert (Hr0 : index_in_range Scenario.sequence Scenario.scenario_start)
      by decide_closed.
    destruct (ticks_index string Scenario.registry Scenario.fallback
                Scenario.sequence Hfit k Scenario.scenario_start _ eq_refl Hr0)
      as (sk & gk & Hsk & Hgk & Hik & _).
    assert (Hrk : index_in_range Scenario.sequence sk).
    { unfold index_in_range. rewrite Hik. apply Z.mod_pos_bound.
      vm_compute. reflexivity. }
    destruct (callback_step string Scenario.registry Scenario.fallback
                Scenario.sequence Hfit sk gk Hgk Hrk)
      as (name & s' & Hname & Hs' & Hg' & _).
    exists s'. rewrite ticks_snoc, Hsk. cbn [bind]. split; [exact Hs'|].
    unfold displayed. rewrite Hg'. cbn [gif_src].
    rewrite Hik in Hname.
    change (current_emotion_index Scenario.scenario_start) with 0 in Hname.
    change (array_count Scenario.sequence) with (Z.of_nat 3) in Hname.
    rewrite Z.add_0_l, <- Nat2Z.inj_mod in Hname.
    assert (Hm : (k mod 3 < 3)%nat) by (apply Nat.mod_upper_bound; discriminate).
    destruct (k mod 3)%nat as [|[|[|m]]]; [| | |lia];
      vm_compute in Hname; injection Hname as <-; reflexivity.
Qed.

Lemma tick_shows_current_then_advances_witness :
  exists name s',
    array_get Scenario.sequence 0 = Some name /\
    emotion_timer_callback Scenario.registry Scenario.fallback Scenario.sequence
      Scenario.scenario_start = Some s' /\
    displayed s' = Some (shown_for Scenario.registry Scenario.fallback name) /\
    current_emotion_index s' = (0 + 1) mod 3.
Proof.
  apply (proj1 tick_shows_current_then_advances string Scenario.registry
           Scenario.fallback Scenario.sequence Scenario.scenario_start
           {| gif_src := Some Scenario.fallback |}).
  - decide_closed.
  - reflexivity.
  - decide_closed.
Defined.

(** C1 (as stated) fails: in the scenario the first tick moves the index to 1,
    the place of "b", but what it shows is "a", the name at the index it
    started from; six ticks do not show b, default, a, b, default, a. *)
Lemma first_tick_shows_old_index :
  exists s',
    emotion_timer_callback Scenario.registry Scenario.fallback Scenario.sequence
      Scenario.scenario_start = Some s' /\
    current_emotion_index s' = 1 /\
    array_get Scenario.sequence (current_emotion_index s') = Some "b" /\
    displayed s' = Some "a" /\
    displayed s' <> Some (shown_for Scenario.registry Scenario.fallback "b") /\
    displayed_by_ticks Scenario.registry Scenario.fallback Scenario.sequence 6
      Scenario.scenario_start
    <> Some [Some "b"; Some "default"; Some "a";
             Some "b"; Some "default"; Some "a"].
Proof.
  eexists. split; [vm_compute; reflexivity|].
  repeat split; try (vm_compute; discriminate).
Qed.

(** The configured sequence has six names and fits an [int]. *)
Lemma emotion_sequence_fits : array_count emotion_sequence <= INT_MAX.
Proof. decide_closed. Qed.

(** C2: a tick of an initialised display whose current name does not resolve
    shows the fallback asset [staticstate], emits one warning, still advances
    the index, leaves the timer running and does not fail; the next tick runs
    as well. *)
Theorem tick_unresolved_shows_fallback
    (img : Type) (get_by_name : string -> option img) (staticstate : img)
    (s : State img) (g : lv_gif img) (name : string) :
  emotion_gif s = Some g ->
  array_get emotion_sequence (current_emotion_index s) = Some name ->
  get_by_name name = None ->
  exists s',
    emotion_timer_callback get_by_name staticstate emotion_sequence s = Some s' /\
    displayed s' = Some staticstate /\
    trace s' =
      trace s ++ [Log ESP_LOG_WARN "未找到表情: %s，使用默认表情" [ArgStr name]] /\
    current_emotion_index s' = (current_emotion_index s + 1) mod 6 /\
    emotion_timer s' = emotion_timer s /\
    lv_timers s' = lv_timers s /\
    exists s'',
      emotion_timer_callback get_by_name staticstate emotion_sequence s' = Some s''.
Proof.
  intros Hg Hname Hmiss.
  assert (Hr : index_in_range emotion_sequence s)
    by (eapply array_get_Some_range; eassumption).
  destruct (callback_step img get_by_name staticstate emotion_sequence
              emotion_sequence_fits s g Hg Hr)
    as (name' & s' & Hname' & Hs' & Hg' & Hi' & Ht' & Hl' & _ & Htr').
  assert (name' = name) by congruence. subst name'.
  assert (Hr' : index_in_range emotion_sequence s')
    by (eapply callback_keeps_range;
        [exact emotion_sequence_fits | exact Hr | exact Hs']).
  destruct (callback_step img get_by_name staticstate emotion_sequence
              emotion_sequence_fits s' _ Hg' Hr')
    as (_ & s'' & _ & Hs'' & _).
  exists s'. unfold shown_for in Hg'. unfold logged_for in Htr'.
  rewrite Hmiss in Hg', Htr'.
  repeat split; try assumption.
  - unfold displayed. rewrite Hg'. reflexivity.
  - exists s''. exact Hs''.
Qed.

Lemma tick_unresolved_shows_fallback_witness :
  exists s',
    emotion_timer_callback partial_registry "staticstate" emotion_sequence
      (sample_at 2) = Some s' /\
    displayed s' = Some "staticstate" /\
    trace s' =
      trace (sample_at 2) ++
      [Log ESP_LOG_WARN "未找到表情: %s，使用默认表情" [ArgStr "sad"]] /\
    current_emotion_index s' = (current_emotion_index (sample_at 2) + 1) mod 6 /\
    emotion_timer s' = emotion_timer (sample_at 2) /\
    lv_timers s' = lv_timers (sample_at 2) /\
    exists s'',
      emotion_timer_callback partial_registry "staticstate" emotion_sequence s'
      = Some s''.
Proof.
  apply (tick_unresolved_shows_fallback string partial_registry "staticstate"
           (sample_at 2) {| gif_src := Some "staticstate" |} "sad");
    reflexivity.
Defined.

(** C4: from any index of the sequence, six ticks of an initialised display
    (six is the length of the sequence) bring the index back to where it
    started, whatever the registry resolves. *)
Theorem six_ticks_return_index
    (img : Type) (get_by_name : string -> option img) (staticstate : img)
    (s : State img) (g : lv_gif img) :
  emotion_gif s = Some g ->
  0 <= current_emotion_index s < 6 ->
  exists s',
    ticks get_by_name staticstate emotion_sequence
      (List.length emotion_sequence) s = Some s' /\
    current_emotion_index s' = current_emotion_index s.
Proof.
  intros Hg Hr.
  destruct (ticks_index img get_by_name staticstate emotion_sequence
              emotion_sequence_fits (List.length emotion_sequence) s g Hg Hr)
    as (s' & _ & Hs' & _ & Hi' & _).
  exists s'. split; [exact Hs'|].
  rewrite Hi'. change (array_count emotion_sequence) with 6.
  change (Z.of_nat (List.length emotion_sequence)) with (1 * 6).
  rewrite Z.mod_add by discriminate. apply Z.mod_small. exact Hr.
Qed.

Lemma six_ticks_return_index_witness :
  exists s',
    ticks partial_registry "staticstate" emotion_sequence
      (List.length emotion_sequence) (sample_at 4) = Some s' /\
    current_emotion_index s' = current_emotion_index (sample_at 4).
Proof.
  apply (six_ticks_return_index string partial_registry "staticstate"
           (sample_at 4) {| gif_src := Some "staticstate" |}).
  - reflexivity.
  - decide_closed.
Defined.

(** ** The manual override *)

(** C3: [set_emotion_by_name] on an initialised display with a name that does
    not resolve leaves what the display shows (and every global) as it was,
    with no fallback, and emits exactly one diagnostic, a warning. *)
Theorem set_by_name_unresolved_keeps_display
    (img : Type) (get_by_name : string -> option img)
    (s : State img) (g : lv_gif img) (name : string) :
  emotion_gif s = Some g ->
  get_by_name name = None ->
  displayed (set_emotion_by_name get_by_name name s) = displayed s /\
  same_globals s (set_emotion_by_name get_by_name name s) /\
  trace (set_emotion_by_name get_by_name name s) =
    trace s ++ [Log ESP_LOG_WARN "未找到表情: %s" [ArgStr name]].
Proof.
  intros Hg Hmiss. unfold set_emotion_by_name. rewrite Hg, Hmiss.
  unfold displayed, same_globals. cbn. repeat split; reflexivity.
Qed.

Lemma set_by_name_unresolved_keeps_display_witness :
  displayed (set_emotion_by_name sample_registry "unknown" sample_created) =
    displayed sample_created /\
  same_globals sample_created
    (set_emotion_by_name sample_registry "unknown" sample_created) /\
  trace (set_emotion_by_name sample_registry "unknown" sample_created) =
    trace sample_created ++ [Log ESP_LOG_WARN "未找到表情: %s" [ArgStr "unknown"]].
Proof.
  apply (set_by_name_unresolved_keeps_display string sample_registry
           sample_created {| gif_src := Some "staticstate" |} "unknown");
    reflexivity.
Defined.

(** C8: [demo_all_emotions] calls [set_emotion_by_name] once for each name of
    its fixed list, in the order staticstate, happy, sad, anger, scare, buxue,
    and blocks for the fixed delay after each call, so between any two
    successive entries; the events it emits are the diagnostic of each call
    followed by the delay, between its opening and closing log lines. *)
Theorem demo_all_sets_each_in_order
    (img : Type) (get_by_name : string -> option img) (ms_to_ticks : Z -> Z)
    (s : State img) :
  demo_all_emotions get_by_name ms_to_ticks s =
    Some (ESP_LOGI "表情演示完成" []
            (fold_left
               (fun st name =>
                  vTaskDelay (ms_to_ticks 2000)
                    (set_emotion_by_name get_by_name name st))
               ["staticstate"; "happy"; "sad"; "anger"; "scare"; "buxue"]
               (ESP_LOGI "开始演示所有表情..." [] s))) /\
  exists s',
    demo_all_emotions get_by_name ms_to_ticks s = Some s' /\
    trace s' =
      trace s ++
      [Log ESP_LOG_INFO "开始演示所有表情..." []] ++
      flat_map (fun name =>
                  [set_by_name_log get_by_name s name; Delay (ms_to_ticks 2000)])
               ["staticstate"; "happy"; "sad"; "anger"; "scare"; "buxue"] ++
      [Log ESP_LOG_INFO "表情演示完成" []].
Proof.
  split.
  - apply demo_all_unrolled.
  - destruct (demo_all_frame img get_by_name ms_to_ticks s)
      as (s' & Hs' & _ & _ & _ & _ & _ & Htr).
    exists s'. split; [exact Hs'|exact Htr].
Qed.

(** C10: [set_emotion_by_name], whatever the name, and [demo_all_emotions]
    leave [current_emotion_index] as it was. *)
Theorem manual_override_keeps_index
    (img : Type) (get_by_name : string -> option img) (ms_to_ticks : Z -> Z)
    (s : State img) :
  (forall name : string,
      current_emotion_index (set_emotion_by_name get_by_name name s) =
      current_emotion_index s) /\
  exists s',
    demo_all_emotions get_by_name ms_to_ticks s = Some s' /\
    current_emotion_index s' = current_emotion_index s.
Proof.
  split.
  - intros name. apply (set_by_name_frame img get_by_name name s).
  - destruct (demo_all_frame img get_by_name ms_to_ticks s)
      as (s' & Hs' & _ & Hi & _).
    exists s'. split; [exact Hs'|exact Hi].
Qed.

(** ** The index invariant *)

(** C9: [current_emotion_index] starts at 0, and every operation (tick,
    set_by_name, start, stop, demo_all), as well as the creation of the
    display, returns and keeps it inside [0, 6). *)
Theorem index_stays_in_range
    (img : Type) (get_by_name : string -> option img) (staticstate : img)
    (ms_to_ticks : Z -> Z) (version : string) (count : Z) :
  current_emotion_index (@initial_state img) = 0 /\
  (forall (op : operation) (s : State img),
      0 <= current_emotion_index s < 6 ->
      exists s',
        run get_by_name staticstate ms_to_ticks emotion_sequence op s = Some s' /\
        0 <= current_emotion_index s' < 6) /\
  (forall s : State img,
      0 <= current_emotion_index s < 6 ->
      0 <= current_emotion_index
             (create_emotion_display version count staticstate s) < 6).
Proof.
  split; [reflexivity|]. split.
  - intros op s Hr. destruct op as [|name| | |]; cbn [run].
    + destruct (emotion_gif s) as [g|] eqn:Hg.
      * destruct (callback_step img get_by_name staticstate emotion_sequence
                    emotion_sequence_fits s g Hg Hr)
          as (name & s' & _ & Hs' & _ & Hi & _).
        exists s'. split; [exact Hs'|]. rewrite Hi.
        apply Z.mod_pos_bound. reflexivity.
      * exists s. split; [|exact Hr]. apply callback_uninitialized. exact Hg.
    + eexists. split; [reflexivity|].
      destruct (set_by_name_frame img get_by_name name s) as (_ & Hi & _).
      rewrite Hi. exact Hr.
    + eexists. split; [reflexivity|].
      destruct (emotion_timer s) as [t|] eqn:Ht.
      * rewrite (start_when_running img s t Ht). exact Hr.
      * destruct (start_when_stopped img s Ht) as (_ & _ & _ & Hi & _).
        rewrite Hi. exact Hr.
    + eexists. split; [reflexivity|].
      destruct (emotion_timer s) as [t|] eqn:Ht.
      * destruct (stop_when_running img s t Ht) as (_ & _ & _ & Hi & _).
        rewrite Hi. exact Hr.
      * rewrite (stop_when_stopped img s Ht). exact Hr.
    + destruct (demo_all_frame img get_by_name ms_to_ticks s)
        as (s' & Hs' & _ & Hi & _).
      exists s'. split; [exact Hs'|]. rewrite Hi. exact Hr.
  - intros s Hr. exact Hr.
Qed.

Lemma index_stays_in_range_witness :
  exists s',
    run sample_registry "staticstate" sample_ms_to_ticks emotion_sequence
      tick (sample_at 5) = Some s' /\
    0 <= current_emotion_index s' < 6.
Proof.
  apply (proj1 (proj2 (index_stays_in_range string sample_registry "staticstate"
                         sample_ms_to_ticks "1.0.0" 6)) tick (sample_at 5)).
  decide_closed.
Defined.

(** ** Operations before the display exists *)

(** C5 (as amended): while the display object is not constructed,
    [set_emotion_by_name] changes no global and no timer and logs exactly one
    line, at error level; [demo_all_emotions] changes none either and logs
    that error once for each of its six entries; a tick changes nothing and
    logs nothing. *)
Theorem uninitialized_set_logs_error_tick_is_silent
    (img : Type) (get_by_name : string -> option img) (staticstate : img)
    (ms_to_ticks : Z -> Z) (sequence : list string) (s : State img) :
  emotion_gif s = None ->
  (forall name : string,
      same_globals s (set_emotion_by_name get_by_name name s) /\
      trace (set_emotion_by_name get_by_name name s) =
        trace s ++ [Log ESP_LOG_ERROR "GIF对象未初始化" []]) /\
  emotion_timer_callback get_by_name staticstate sequence s = Some s /\
  exists s',
    demo_all_emotions get_by_name ms_to_ticks s = Some s' /\
    same_globals s s' /\
    trace s' =
      trace s ++
      [Log ESP_LOG_INFO "开始演示所有表情..." []] ++
      flat_map (fun _ : string =>
                  [Log ESP_LOG_ERROR "GIF对象未初始化" [];
                   Delay (ms_to_ticks 2000)])
               demo_names ++
      [Log ESP_LOG_INFO "表情演示完成" []].
Proof.
  intros Hg. split; [|split].
  - intros name. unfold set_emotion_by_name. rewrite Hg.
    unfold same_globals. repeat split; reflexivity.
  - apply callback_uninitialized. exact Hg.
  - destruct (demo_all_frame img get_by_name ms_to_ticks s)
      as (s' & Hs' & Ht & Hi & Hl & Hn & Hgif & Htr).
    exists s'. split; [exact Hs'|]. split.
    + unfold same_globals. rewrite Hg. repeat split; try assumption.
      apply Hgif. exact Hg.
    + rewrite Htr. do 2 f_equal. f_equal.
      apply flat_map_ext. intros name. unfold set_by_name_log.
      rewrite Hg. reflexivity.
Qed.

Lemma uninitialized_set_logs_error_tick_is_silent_witness :
  (forall name : string,
      same_globals initial_state
        (set_emotion_by_name sample_registry name initial_state) /\
      trace (set_emotion_by_name sample_registry name initial_state) =
        trace (@initial_state string) ++
        [Log ESP_LOG_ERROR "GIF对象未初始化" []]) /\
  emotion_timer_callback sample_registry "staticstate" emotion_sequence
    initial_state = Some initial_state /\
  exists s',
    demo_all_emotions sample_registry sample_ms_to_ticks initial_state = Some s' /\
    same_globals initial_state s' /\
    trace s' =
      trace (@initial_state string) ++
      [Log ESP_LOG_INFO "开始演示所有表情..." []] ++
      flat_map (fun _ : string =>
                  [Log ESP_LOG_ERROR "GIF对象未初始化" [];
                   Delay (sample_ms_to_ticks 2000)])
               demo_names ++
      [Log ESP_LOG_INFO "表情演示完成" []].
Proof.
  apply (uninitialized_set_logs_error_tick_is_silent string sample_registry
           "staticstate" sample_ms_to_ticks emotion_sequence initial_state).
  reflexivity.
Defined.

(** C5 (as stated) fails: before the display is created a tick returns the
    state as it is and emits no event, so nothing is logged at error level;
    and [start_auto_emotion_switch], which does not look at the display
    object, is no no-op there: it registers a timer. *)
Lemma tick_before_creation_logs_nothing :
  emotion_gif (@initial_state string) = None /\
  ~ (exists s' evs,
        run sample_registry "staticstate" sample_ms_to_ticks emotion_sequence
          tick initial_state = Some s' /\
        same_globals initial_state s' /\
        emitted initial_state s' evs /\
        existsb is_error_log evs = true) /\
  ~ (exists s',
        run sample_registry "staticstate" sample_ms_to_ticks emotion_sequence
          start initial_state = Some s' /\
        same_globals initial_state s').
Proof.
  split; [reflexivity|]. split.
  - intros (s' & evs & Hrun & _ & Hev & Herr).
    cbn in Hrun. injection Hrun as <-.
    unfold emitted in Hev. cbn in Hev. subst evs. discriminate Herr.
  - intros (s' & Hrun & _ & Ht & _).
    cbn in Hrun. injection Hrun as <-. discriminate Ht.
Qed.

(** ** Starting and stopping the rotation *)

(** The single-timer invariant holds once the display is created and every
    operation that returns keeps it. *)
Lemma timers_wf_preserved
    (img : Type) (get_by_name : string -> option img) (staticstate : img)
    (ms_to_ticks : Z -> Z) (sequence : list string) (version : string)
    (count : Z) :
  timers_wf (create_emotion_display version count staticstate
               (@initial_state img)) /\
  (forall (op : operation) (s s' : State img),
      timers_wf s ->
      run get_by_name staticstate ms_to_ticks sequence op s = Some s' ->
      timers_wf s').
Proof.
  split; [reflexivity|].
  intros op s s' Hwf Hrun. unfold timers_wf in *.
  destruct op as [|name| | |]; cbn [run] in Hrun.
  - destruct (callback_keeps_timers img get_by_name staticstate sequence
                s s' Hrun) as (Ht & Hl).
    rewrite Ht, Hl. exact Hwf.
  - injection Hrun as <-.
    destruct (set_by_name_frame img get_by_name name s) as (Ht & _ & Hl & _).
    rewrite Ht, Hl. exact Hwf.
  - injection Hrun as <-.
    destruct (emotion_timer s) as [t|] eqn:Ht.
    + rewrite (start_when_running img s t Ht), Ht. exact Hwf.
    + destruct (start_when_stopped img s Ht) as (Ht2 & Hl & _).
      rewrite Ht2, Hl. destruct (lv_timers s); [reflexivity|discriminate].
  - injection Hrun as <-.
    destruct (stop_clears_timers img s) as (Hnone & Hclear).
    rewrite Hnone, Hclear; [reflexivity|].
    unfold timers_wf. exact Hwf.
  - destruct (demo_all_frame img get_by_name ms_to_ticks s)
      as (s1 & Hs1 & Ht & _ & Hl & _).
    rewrite Hrun in Hs1. injection Hs1 as <-.
    rewrite Ht, Hl. exact Hwf.
Qed.

(** [start_auto_emotion_switch] is a no-op while a timer is held, so a second
    start in a row changes nothing; under the single-timer invariant two
    starts in a row leave exactly one live timer. *)
Theorem start_is_idempotent (img : Type) (s : State img) :
  (emotion_timer s <> None -> start_auto_emotion_switch s = s) /\
  start_auto_emotion_switch (start_auto_emotion_switch s) =
    start_auto_emotion_switch s /\
  (timers_wf s ->
   List.length (lv_timers (start_auto_emotion_switch
                             (start_auto_emotion_switch s))) = 1%nat /\
   timers_wf (start_auto_emotion_switch (start_auto_emotion_switch s))).
Proof.
  assert (Hheld : exists t, emotion_timer (start_auto_emotion_switch s) = Some t).
  { destruct (emotion_timer s) as [t|] eqn:Ht.
    - exists t. rewrite (start_when_running img s t Ht). exact Ht.
    - exists (lv_timer_next s). apply (start_when_stopped img s Ht). }
  destruct Hheld as (t' & Ht').
  split; [|split].
  - intros Hrun. destruct (emotion_timer s) as [t|] eqn:Ht; [|congruence].
    apply (start_when_running img s t Ht).
  - apply (start_when_running img _ t' Ht').
  - intros Hwf. rewrite (start_when_running img _ t' Ht').
    assert (Hone : map timer_handle (lv_timers (start_auto_emotion_switch s))
                   = [t']).
    { destruct (emotion_timer s) as [t|] eqn:Ht.
      - rewrite (start_when_running img s t Ht) in *.
        unfold timers_wf in Hwf. rewrite Ht in Hwf. congruence.
      - destruct (start_when_stopped img s Ht) as (Ht2 & Hl & _).
        unfold timers_wf in Hwf. rewrite Ht in Hwf.
        rewrite Hl. destruct (lv_timers s); [|discriminate].
        cbn. congruence. }
    split.
    + rewrite <- (length_map timer_handle), Hone. reflexivity.
    + unfold timers_wf. rewrite Ht'. exact Hone.
Qed.

Lemma start_is_idempotent_witness :
  start_auto_emotion_switch sample_created = sample_created /\
  List.length
    (lv_timers (start_auto_emotion_switch
                  (start_auto_emotion_switch
                     (stop_auto_emotion_switch sample_created)))) = 1%nat /\
  timers_wf (start_auto_emotion_switch
               (start_auto_emotion_switch
                  (stop_auto_emotion_switch sample_created))).
Proof.
  split.
  - apply (proj1 (start_is_idempotent string sample_created)).
    vm_compute. discriminate.
  - apply (proj2 (proj2 (start_is_idempotent string
                           (stop_auto_emotion_switch sample_created)))).
    reflexivity.
Defined.

(** [stop_auto_emotion_switch] is a no-op when no timer is held, so it is
    idempotent; under the single-timer invariant it leaves the host with no
    live timer, so that a period elapsing, or any timer coming due, changes
    nothing (neither the index nor the display), until
    [start_auto_emotion_switch] registers a timer again, after which a period
    elapsing runs the callback. *)
Theorem stop_halts_rotation
    (img : Type) (get_by_name : string -> option img) (staticstate : img)
    (sequence : list string) (s : State img) :
  (emotion_timer s = None -> stop_auto_emotion_switch s = s) /\
  stop_auto_emotion_switch (stop_auto_emotion_switch s) =
    stop_auto_emotion_switch s /\
  (timers_wf s ->
   lv_timers (stop_auto_emotion_switch s) = [] /\
   lv_timer_handler get_by_name staticstate sequence
     (stop_auto_emotion_switch s) = Some (stop_auto_emotion_switch s) /\
   (forall t : lv_timer_t,
       lv_timer_fire get_by_name staticstate sequence t
         (stop_auto_emotion_switch s) = Some (stop_auto_emotion_switch s)) /\
   lv_timer_handler get_by_name staticstate sequence
     (start_auto_emotion_switch (stop_auto_emotion_switch s)) =
   emotion_timer_callback get_by_name staticstate sequence
     (start_auto_emotion_switch (stop_auto_emotion_switch s))).
Proof.
  destruct (stop_clears_timers img s) as (Hnone & Hclear).
  split; [|split].
  - apply stop_when_stopped.
  - apply stop_when_stopped. exact Hnone.
  - intros Hwf. specialize (Hclear Hwf).
    split; [exact Hclear|]. split; [|split].
    + unfold lv_timer_handler. rewrite Hclear. reflexivity.
    + intros t. unfold lv_timer_fire. rewrite Hclear. reflexivity.
    + destruct (start_when_stopped img _ Hnone) as (_ & Hl & _).
      unfold lv_timer_handler. rewrite Hl, Hclear.
      cbn [app run_timers timer_callback run_callback].
      destruct (emotion_timer_callback get_by_name staticstate sequence
                  (start_auto_emotion_switch (stop_auto_emotion_switch s)));
        reflexivity.
Qed.

Lemma stop_halts_rotation_witness :
  stop_auto_emotion_switch (stop_auto_emotion_switch sample_created) =
    stop_auto_emotion_switch sample_created /\
  lv_timers (stop_auto_emotion_switch sample_created) = [] /\
  lv_timer_handler sample_registry "staticstate" emotion_sequence
    (stop_auto_emotion_switch sample_created) =
  Some (stop_auto_emotion_switch sample_created) /\
  (forall t : lv_timer_t,
      lv_timer_fire sample_registry "staticstate" emotion_sequence t
        (stop_auto_emotion_switch sample_created) =
      Some (stop_auto_emotion_switch sample_created)) /\
  lv_timer_handler sample_registry "staticstate" emotion_sequence
    (start_auto_emotion_switch (stop_auto_emotion_switch sample_created)) =
  emotion_timer_callback sample_registry "staticstate" emotion_sequence
    (start_auto_emotion_switch (stop_auto_emotion_switch sample_created)).
Proof.
  split.
  - apply (proj1 (stop_halts_rotation string sample_registry "staticstate"
                    emotion_sequence (stop_auto_emotion_switch sample_created))).
    reflexivity.
  - apply (proj2 (proj2 (stop_halts_rotation string sample_registry
                           "staticstate" emotion_sequence sample_created))).
    reflexivity.
Defined.

(** ** Further properties of the rotation *)

(** From any index of the sequence, [n] ticks of an existing widget return,
    leave the index [n] places further round the six names, and show, tick
    after tick, the assets of the names at the index it started from and the
    places after it (the default asset for a name that does not resolve). *)
Theorem rotation_shows_names_in_order
    (img : Type) (get_by_name : string -> option img) (staticstate : img)
    (s : State img) (g : lv_gif img) (n : nat) :
  emotion_gif s = Some g ->
  0 <= current_emotion_index s < 6 ->
  (exists s',
      ticks get_by_name staticstate emotion_sequence n s = Some s' /\
      current_emotion_index s' = (current_emotion_index s + Z.of_nat n) mod 6) /\
  displayed_by_ticks get_by_name staticstate emotion_sequence n s =
    Some (map (fun k : nat =>
                 option_map (shown_for get_by_name staticstate)
                   (array_get emotion_sequence
                      ((current_emotion_index s + Z.of_nat k) mod 6)))
              (List.seq 0 n)).
Proof.
  intros Hg Hr. split.
  - destruct (ticks_index img get_by_name staticstate emotion_sequence
                emotion_sequence_fits n s g Hg Hr)
      as (s' & _ & Hs' & _ & Hi & _).
    exists s'. split; [exact Hs'|exact Hi].
  - apply (displayed_by_ticks_rotation img get_by_name staticstate
             emotion_sequence emotion_sequence_fits n s g Hg Hr).
Qed.

Lemma rotation_shows_names_in_order_witness :
  (exists s',
      ticks partial_registry "staticstate" emotion_sequence 8 (sample_at 4)
      = Some s' /\
      current_emotion_index s' =
        (current_emotion_index (sample_at 4) + Z.of_nat 8) mod 6) /\
  displayed_by_ticks partial_registry "staticstate" emotion_sequence 8
    (sample_at 4) =
    Some (map (fun k : nat =>
                 option_map (shown_for partial_registry "staticstate")
                   (array_get emotion_sequence
                      ((current_emotion_index (sample_at 4) + Z.of_nat k)
                       mod 6)))
              (List.seq 0 8)).
Proof.
  apply (rotation_shows_names_in_order string partial_registry "staticstate"
           (sample_at 4) {| gif_src := Some "staticstate" |} 8).
  - reflexivity.
  - decide_closed.
Defined.

(** A tick of an existing widget has a defined result exactly when the index
    is a position of the six-name array: outside [0, 6) the array read of the
    callback is out of bounds. *)
Theorem tick_defined_iff_index_in_range
    (img : Type) (get_by_name : string -> option img) (staticstate : img)
    (s : State img) (g : lv_gif img) :
  emotion_gif s = Some g ->
  (exists s',
      emotion_timer_callback get_by_name staticstate emotion_sequence s
      = Some s') <->
  0 <= current_emotion_index s < 6.
Proof.
  intros Hg.
  apply (callback_defined_iff img get_by_name staticstate emotion_sequence
           emotion_sequence_fits s g Hg).
Qed.

Lemma tick_defined_iff_index_in_range_witness :
  (exists s',
      emotion_timer_callback sample_registry "staticstate" emotion_sequence
        (sample_at 6) = Some s') <->
  0 <= current_emotion_index (sample_at 6) < 6.
Proof.
  apply (tick_defined_iff_index_in_range string sample_registry "staticstate"
           (sample_at 6) {| gif_src := Some "staticstate" |}).
  reflexivity.
Defined.

(** A manual set lasts until the next tick: a tick after
    [set_emotion_by_name], whatever the name, leaves the widget, the index and
    the timers exactly as the tick alone does. *)
Theorem tick_overrides_manual_set
    (img : Type) (get_by_name : string -> option img) (staticstate : img)
    (name : string) (s : State img) (g : lv_gif img) :
  emotion_gif s = Some g ->
  0 <= current_emotion_index s < 6 ->
  exists s1 s2,
    emotion_timer_callback get_by_name staticstate emotion_sequence
      (set_emotion_by_name get_by_name name s) = Some s1 /\
    emotion_timer_callback get_by_name staticstate emotion_sequence s
      = Some s2 /\
    same_globals s2 s1.
Proof.
  intros Hg Hr.
  apply (callback_after_set img get_by_name staticstate emotion_sequence
           emotion_sequence_fits name s g Hg Hr).
Qed.

Lemma tick_overrides_manual_set_witness :
  exists s1 s2,
    emotion_timer_callback sample_registry "staticstate" emotion_sequence
      (set_emotion_by_name sample_registry "scare" (sample_at 1)) = Some s1 /\
    emotion_timer_callback sample_registry "staticstate" emotion_sequence
      (sample_at 1) = Some s2 /\
    same_globals s2 s1.
Proof.
  apply (tick_overrides_manual_set string sample_registry "staticstate"
           "scare" (sample_at 1) {| gif_src := Some "staticstate" |}).
  - reflexivity.
  - decide_closed.
Defined.

(** ** Further properties of the manual entry points *)

(** A log line does not change what the widget shows. *)
Lemma displayed_ESP_LOGI (img : Type) (fmt : string) (args : list log_arg)
    (s : State img) :
  displayed (ESP_LOGI fmt args s) = displayed s.
Proof. reflexivity. Qed.

(** On an existing widget [demo_all_emotions] returns and leaves the widget
    showing the asset of the last of its six names that resolves, or what it
    showed before when none does; with "buxue" registered that is the asset of
    "buxue". *)
Theorem demo_all_leaves_last_resolved
    (img : Type) (get_by_name : string -> option img) (ms_to_ticks : Z -> Z)
    (s : State img) (g : lv_gif img) :
  emotion_gif s = Some g ->
  exists s',
    demo_all_emotions get_by_name ms_to_ticks s = Some s' /\
    displayed s' =
      last_resolved get_by_name
        ["staticstate"; "happy"; "sad"; "anger"; "scare"; "buxue"]
        (displayed s) /\
    (forall emotion : img,
        get_by_name "buxue" = Some emotion -> displayed s' = Some emotion).
Proof.
  intros Hg. eexists. split; [apply demo_all_unrolled|].
  set (s0 := ESP_LOGI "开始演示所有表情..." [] s).
  assert (Hg0 : emotion_gif s0 = Some g) by exact Hg.
  assert (Hd :
    displayed (ESP_LOGI "表情演示完成" []
                 (fold_left (demo_step get_by_name ms_to_ticks) demo_names s0)) =
    last_resolved get_by_name demo_names (displayed s)).
  { rewrite displayed_ESP_LOGI.
    rewrite (demo_steps_displayed img get_by_name ms_to_ticks demo_names
               s0 g Hg0).
    subst s0. rewrite displayed_ESP_LOGI. reflexivity. }
  split; [exact Hd|].
  intros emotion Hbuxue. rewrite Hd.
  unfold last_resolved, demo_names. cbn [fold_left]. rewrite Hbuxue.
  reflexivity.
Qed.

Lemma demo_all_leaves_last_resolved_witness :
  exists s',
    demo_all_emotions partial_registry sample_ms_to_ticks (sample_at 3)
    = Some s' /\
    displayed s' =
      last_resolved partial_registry
        ["staticstate"; "happy"; "sad"; "anger"; "scare"; "buxue"]
        (displayed (sample_at 3)) /\
    (forall emotion : string,
        partial_registry "buxue" = Some emotion -> displayed s' = Some emotion).
Proof.
  apply (demo_all_leaves_last_resolved string partial_registry
           sample_ms_to_ticks (sample_at 3) {| gif_src := Some "staticstate" |}).
  reflexivity.
Defined.

(** ** Further properties of the timer switch *)

(** Stopping and starting again does not reset the rotation: the index and
    the widget are what they were before the stop, and under the single-timer
    invariant the host has exactly one live timer afterwards, the one the
    program holds. *)
Theorem stop_then_start_resumes (img : Type) (s : State img) :
  current_emotion_index
    (start_auto_emotion_switch (stop_auto_emotion_switch s)) =
    current_emotion_index s /\
  emotion_gif (start_auto_emotion_switch (stop_auto_emotion_switch s)) =
    emotion_gif s /\
  (timers_wf s ->
   timers_wf (start_auto_emotion_switch (stop_auto_emotion_switch s)) /\
   List.length
     (lv_timers (start_auto_emotion_switch (stop_auto_emotion_switch s)))
   = 1%nat).
Proof.
  destruct (stop_clears_timers img s) as (Hnone & Hclear).
  destruct (start_when_stopped img _ Hnone) as (Ht & Hl & Hg & Hi & _).
  assert (Hstop :
    current_emotion_index (stop_auto_emotion_switch s) =
      current_emotion_index s /\
    emotion_gif (stop_auto_emotion_switch s) = emotion_gif s).
  { destruct (emotion_timer s) as [t|] eqn:E.
    - destruct (stop_when_running img s t E) as (_ & _ & Hg' & Hi' & _).
      split; assumption.
    - rewrite (stop_when_stopped img s E). split; reflexivity. }
  destruct Hstop as (Hi0 & Hg0).
  split; [rewrite Hi; exact Hi0|]. split; [rewrite Hg; exact Hg0|].
  intros Hwf. specialize (Hclear Hwf). unfold timers_wf.
  rewrite Ht, Hl, Hclear. split; reflexivity.
Qed.

Lemma stop_then_start_resumes_witness :
  timers_wf (start_auto_emotion_switch (stop_auto_emotion_switch (sample_at 3)))
  /\
  List.length
    (lv_timers (start_auto_emotion_switch
                  (stop_auto_emotion_switch (sample_at 3))))
  = 1%nat.
Proof.
  apply (proj2 (proj2 (stop_then_start_resumes string (sample_at 3)))).
  reflexivity.
Defined.

(** [create_emotion_display] does not delete a timer the program already
    holds: called while a live timer is held (a second call, or a call after
    [start_auto_emotion_switch]) it leaves the host with two live timers and
    holds only the new one; a stop then deletes the new one only, so the old
    timer stays live and a period elapsing still runs the callback. *)
Theorem create_leaks_held_timer
    (img : Type) (get_by_name : string -> option img) (staticstate : img)
    (sequence : list string) (version : string) (count : Z)
    (s : State img) (t : lv_timer_t) :
  timers_wf s ->
  timers_fresh s ->
  emotion_timer s = Some t ->
  let s1 := create_emotion_display version count staticstate s in
  let s2 := stop_auto_emotion_switch s1 in
  map timer_handle (lv_timers s1) = [t; lv_timer_next s] /\
  emotion_timer s1 = Some (lv_timer_next s) /\
  emotion_timer s2 = None /\
  map timer_handle (lv_timers s2) = [t] /\
  lv_timer_handler get_by_name staticstate sequence s2 =
    emotion_timer_callback get_by_name staticstate sequence s2.
Proof.
  intros Hwf Hfresh Ht s1 s2.
  destruct (create_frame img staticstate version count s)
    as (_ & Ht1 & _ & Hl1 & _).
  fold s1 in Ht1, Hl1.
  destruct (stop_when_running img s1 _ Ht1) as (Ht2 & Hl2 & _).
  fold s2 in Ht2, Hl2.
  unfold timers_wf in Hwf. rewrite Ht in Hwf.
  destruct (lv_timers s) as [|tm [|tm' rest]] eqn:El; try discriminate Hwf.
  injection Hwf as Hh.
  assert (Hlt : (timer_handle tm < lv_timer_next s)%nat)
    by (apply Hfresh; rewrite El; left; reflexivity).
  assert (Hne : Nat.eqb (timer_handle tm) (lv_timer_next s) = false)
    by (apply Nat.eqb_neq; lia).
  assert (Hl2' : lv_timers s2 = [tm]).
  { rewrite Hl2, Hl1. cbn [app filter timer_handle].
    rewrite Hne, Nat.eqb_refl. reflexivity. }
  split; [rewrite Hl1; cbn; rewrite Hh; reflexivity|].
  split; [exact Ht1|]. split; [exact Ht2|].
  split; [rewrite Hl2'; cbn; rewrite Hh; reflexivity|].
  unfold lv_timer_handler. rewrite Hl2'. cbn [run_timers].
  destruct (timer_callback tm). cbn [run_callback].
  destruct (emotion_timer_callback get_by_name staticstate sequence s2);
    reflexivity.
Qed.

Lemma create_leaks_held_timer_witness :
  let s1 := create_emotion_display "1.0.0" 6 "staticstate" sample_created in
  let s2 := stop_auto_emotion_switch s1 in
  map timer_handle (lv_timers s1) = [O; lv_timer_next sample_created] /\
  emotion_timer s1 = Some (lv_timer_next sample_created) /\
  emotion_timer s2 = None /\
  map timer_handle (lv_timers s2) = [O] /\
  lv_timer_handler sample_registry "staticstate" emotion_sequence s2 =
    emotion_timer_callback sample_registry "staticstate" emotion_sequence s2.
Proof.
  apply (create_leaks_held_timer string sample_registry "staticstate"
           emotion_sequence "1.0.0" 6 sample_created O).
  - reflexivity.
  - intros tm [Htm|[]]. subst tm. vm_compute. reflexivity.
  - reflexivity.
Defined.

Lemma timers_wf_preserved_witness :
  timers_wf (create_emotion_display "1.0.0" 6 "staticstate"
               (@initial_state string)) /\
  timers_wf (start_auto_emotion_switch (stop_auto_emotion_switch sample_created)).
Proof.
  split.
  - apply (proj1 (timers_wf_preserved string sample_registry "staticstate"
                    sample_ms_to_ticks emotion_sequence "1.0.0" 6)).
  - apply (proj2 (timers_wf_preserved string sample_registry "staticstate"
                    sample_ms_to_ticks emotion_sequence "1.0.0" 6)
             start (stop_auto_emotion_switch sample_created)).
    + reflexivity.
    + reflexivity.
Defined.

(** Creating the display wires the rotation: from a state with no timer, the
    first period that elapses after [create_emotion_display] runs exactly one
    tick, which shows the asset of the name at the index the program had (the
    creation does not reset it) and advances the index by one. *)
Theorem create_then_period_ticks_once
    (img : Type) (get_by_name : string -> option img) (staticstate : img)
    (version : string) (count : Z) (s : State img) :
  timers_wf s ->
  emotion_timer s = None ->
  0 <= current_emotion_index s < 6 ->
  exists name s',
    array_get emotion_sequence (current_emotion_index s) = Some name /\
    lv_timer_handler get_by_name staticstate emotion_sequence
      (create_emotion_display version count staticstate s) = Some s' /\
    displayed s' = Some (shown_for get_by_name staticstate name) /\
    current_emotion_index s' = (current_emotion_index s + 1) mod 6.
Proof.
  intros Hwf Ht Hr.
  destruct (create_frame img staticstate version count s)
    as (Hg1 & _ & Hi1 & Hl1 & _).
  unfold timers_wf in Hwf. rewrite Ht in Hwf.
  destruct (lv_timers s) as [|tm rest] eqn:El; [|discriminate Hwf].
  assert (Hr1 : index_in_range emotion_sequence
                  (create_emotion_display version count staticstate s))
    by (unfold index_in_range; rewrite Hi1; exact Hr).
  destruct (callback_step img get_by_name staticstate emotion_sequence
              emotion_sequence_fits _ _ Hg1 Hr1)
    as (name & s' & Hname & Hs' & Hg' & Hi' & _).
  rewrite Hi1 in Hname, Hi'.
  exists name, s'. split; [exact Hname|]. split.
  - unfold lv_timer_handler. rewrite Hl1.
    cbn [app run_timers timer_callback run_callback].
    rewrite Hs'. reflexivity.
  - split; [|exact Hi']. unfold displayed. rewrite Hg'. reflexivity.
Qed.

Lemma create_then_period_ticks_once_witness :
  exists name s',
    array_get emotion_sequence (current_emotion_index (@initial_state string))
    = Some name /\
    lv_timer_handler sample_registry "staticstate" emotion_sequence
      (create_emotion_display "1.0.0" 6 "staticstate" initial_state) = Some s' /\
    displayed s' = Some (shown_for sample_registry "staticstate" name) /\
    current_emotion_index s' =
      (current_emotion_index (@initial_state string) + 1) mod 6.
Proof.
  apply (create_then_period_ticks_once string sample_registry "staticstate"
           "1.0.0" 6 initial_state).
  - reflexivity.
  - reflexivity.
  - decide_closed.
Defined.

(** Manual sets compose by last writer: after [set_emotion_by_name] is called
    on an existing widget for a list of names in order, the widget shows the
    asset of the last name that resolves (names that do not resolve change
    nothing), or what it showed before when none resolves, and the index is
    where it was. *)
Theorem manual_sets_last_resolved_wins
    (img : Type) (get_by_name : string -> option img) (names : list string) :
  forall (s : State img) (g : lv_gif img),
    emotion_gif s = Some g ->
    displayed
      (fold_left (fun st name => set_emotion_by_name get_by_name name st)
         names s) =
      last_resolved get_by_name names (displayed s) /\
    current_emotion_index
      (fold_left (fun st name => set_emotion_by_name get_by_name name st)
         names s) = current_emotion_index s.
Proof.
  induction names as [|name names IH]; intros s g Hg; [split; reflexivity|].
  assert (Hstep :
    displayed (set_emotion_by_name get_by_name name s) =
      last_resolved get_by_name [name] (displayed s) /\
    current_emotion_index (set_emotion_by_name get_by_name name s) =
      current_emotion_index s /\
    exists g', emotion_gif (set_emotion_by_name get_by_name name s) = Some g').
  { unfold set_emotion_by_name, lv_gif_set_src, last_resolved, displayed.
    rewrite Hg. cbn [fold_left].
    destruct (get_by_name name) as [emotion|]; cbn; rewrite ?Hg;
      (split; [reflexivity|split; [reflexivity|eexists; reflexivity]]). }
  destruct Hstep as (Hd & Hi & g' & Hg').
  destruct (IH _ g' Hg') as (IHd & IHi).
  cbn [fold_left]. rewrite IHd, IHi, Hd, Hi. split; reflexivity.
Qed.

Lemma manual_sets_last_resolved_wins_witness :
  displayed
    (fold_left (fun st name => set_emotion_by_name partial_registry name st)
       ["happy"; "sad"; "unknown"] (sample_at 2)) =
    last_resolved partial_registry ["happy"; "sad"; "unknown"]
      (displayed (sample_at 2)) /\
  current_emotion_index
    (fold_left (fun st name => set_emotion_by_name partial_registry name st)
       ["happy"; "sad"; "unknown"] (sample_at 2)) =
    current_emotion_index (sample_at 2).
Proof.
  apply (manual_sets_last_resolved_wins string partial_registry
           ["happy"; "sad"; "unknown"] (sample_at 2)
           {| gif_src := Some "staticstate" |}).
  reflexivity.
Defined.

(** ** The timer that [create_emotion_display] leaves behind *)

(** C6 does not hold of the code.  [create_emotion_display] stores its new
    timer over the handle the program holds without deleting the held timer,
    where [start_auto_emotion_switch] tests the handle first.  After a start
    and the creation of the display, two starts in a row leave two live
    timers, not one.  After the stop that follows, the program holds no timer
    while the first timer is still live and a period still advances the
    rotation; a start then registers a further timer beside it. *)
Theorem start_twice_leaves_two_timers_after_leak :
  let leaked :=
    create_emotion_display "1.0.0" 6 "staticstate"
      (start_auto_emotion_switch (@initial_state string)) in
  let stopped := stop_auto_emotion_switch leaked in
  map timer_handle
    (lv_timers (start_auto_emotion_switch (start_auto_emotion_switch leaked)))
  = [0%nat; 1%nat] /\
  List.length
    (lv_timers (start_auto_emotion_switch (start_auto_emotion_switch leaked)))
  = 2%nat /\
  emotion_timer stopped = None /\
  map timer_handle (lv_timers stopped) = [0%nat] /\
  (exists s',
      lv_timer_handler sample_registry "staticstate" emotion_sequence stopped
      = Some s' /\
      current_emotion_index stopped = 0 /\
      current_emotion_index s' = 1) /\
  map timer_handle (lv_timers (start_auto_emotion_switch stopped))
  = [0%nat; 2%nat].
Proof.
  cbv zeta.
  split; [vm_compute; reflexivity|].
  split; [vm_compute; reflexivity|].
  split; [vm_compute; reflexivity|].
  split; [vm_compute; reflexivity|].
  split; [|vm_compute; reflexivity].
  eexists. split; [vm_compute; reflexivity|].
  split; vm_compute; reflexivity.
Qed.

(** C7 does not hold of the code, by the same overwritten handle.  After a
    start, the creation of the display and a stop, the program holds no timer
    but the timer of the first start is still live: the index is 0 and the
    display shows "staticstate", and the two periods that elapse after the
    stop run the callback twice, moving the index to 2 and the display to
    "happy". *)
Theorem stop_leaves_leaked_timer_running :
  let stopped :=
    stop_auto_emotion_switch
      (create_emotion_display "1.0.0" 6 "staticstate"
         (start_auto_emotion_switch (@initial_state string))) in
  emotion_timer stopped = None /\
  map timer_handle (lv_timers stopped) = [0%nat] /\
  current_emotion_index stopped = 0 /\
  displayed stopped = Some "staticstate" /\
  exists s1 s2,
    lv_timer_handler sample_registry "staticstate" emotion_sequence stopped
    = Some s1 /\
    current_emotion_index s1 = 1 /\
    lv_timer_handler sample_registry "staticstate" emotion_sequence s1
    = Some s2 /\
    current_emotion_index s2 = 2 /\
    displayed s2 = Some "happy".
Proof.
  cbv zeta.
  split; [vm_compute; reflexivity|].
  split; [vm_compute; reflexivity|].
  split; [vm_compute; reflexivity|].
  split; [vm_compute; reflexivity|].
  eexists. eexists.
  split; [vm_compute; reflexivity|].
  split; [vm_compute; reflexivity|].
  split; [vm_compute; reflexivity|].
  split; vm_compute; reflexivity.
Qed.
